(** * raiblocks.client: the RaiBlocks node RPC client

    A shallow embedding of [src/raiblocks/client.py] and the properties of
    its request building and response shaping.

    Conventions of the model.
    - Python values are the values a JSON body decodes to: [None], booleans,
      integers (unbounded, as [Z]), floats (as IEEE [spec_float]), strings,
      lists and dicts with string keys.  A dict is a [gmap string value]:
      Python compares dicts without regard to order, and so does [gmap].
      Iteration over a dict follows the [gmap]'s own order; this only decides
      which exception is seen first when several items of one dict fail.
    - Strings are Stdlib strings.  [int] on a string follows Python 3 (3.6 and
      later) on ASCII text: surrounding whitespace, one optional sign, decimal
      digits with single underscores between them.  Characters outside ASCII
      are neither digits nor whitespace here, and the interpreter's optional
      limit on the number of digits is not modelled.
    - A raised exception is a value of [exn]; a computation that may raise
      returns a [result].
    - The network is the [Session] held by the client: [post] maps the url and
      the JSON body to a response or an exception.  A computation of type
      [M A] returns the list of requests it has sent, in order, next to its
      result.
    - Values are trees: two places of a response never hold the same object,
      as is the case for a decoded JSON body.
    - [raiblocks.models] is not among the sources; its three classes are the
      fields of the class [Models]. *)

From Stdlib Require Import ZArith String Ascii SpecFloat DecimalString DecimalPos.
From stdpp Require Import gmap strings list fin_maps.

#[local] Set Warnings "-register-all".
#[local] Open Scope string_scope.
#[local] Open Scope Z_scope.

(** ** Exceptions and results *)

Inductive exn :=
| TypeError
| ValueError
| KeyError
| AttributeError
| OverflowError
| OtherError (name : string).

Inductive result (A : Type) :=
| Ok (a : A)
| Raise (e : exn).
Arguments Ok {A} a.
Arguments Raise {A} e.

Definition result_bind {A B} (r : result A) (k : A → result B) : result B :=
  match r with
  | Ok a => k a
  | Raise e => Raise e
  end.

Definition raises {A} (r : result A) : Prop := ∃ e, r = Raise e.

(** ** Python values *)

Inductive value :=
| VNone
| VBool (b : bool)
| VInt (n : Z)
| VFloat (f : spec_float)
| VStr (s : string)
| VList (l : list value)
| VDict (d : gmap string value).

Module Py.

(** [bool(v)]: the truth value Python gives to [v] in [if], [and], [or]
    and [not]. *)
Definition truthy (v : value) : bool :=
  match v with
  | VNone => false
  | VBool b => b
  | VInt n => negb (n =? 0)
  | VFloat (S754_zero _) => false
  | VFloat _ => true
  | VStr s => negb (String.eqb s "")
  | VList l => negb (Nat.eqb (length l) 0)
  | VDict d => negb (Nat.eqb (size d) 0)
  end.

(** [a and b], [a or b]: both return one of their operands. *)
Definition and_ (a b : value) : value := if truthy a then b else a.
Definition or_ (a b : value) : value := if truthy a then a else b.

(** Whitespace as [int] strips it: tab, line feed, vertical tab, form feed,
    carriage return (0x09-0x0d) and the space (0x20).  The separators
    0x1c-0x1f are not stripped: [int] rejects a string that holds one. *)
Definition is_space (c : ascii) : bool :=
  let n := nat_of_ascii c in
  ((9 <=? n)%nat && (n <=? 13)%nat) || (n =? 32)%nat.

Definition digit_of (c : ascii) : option Z :=
  let n := nat_of_ascii c in
  if ((48 <=? n)%nat && (n <=? 57)%nat) then Some (Z.of_nat n - 48) else None.

Fixpoint lstrip (l : list ascii) : list ascii :=
  match l with
  | c :: l' => if is_space c then lstrip l' else l
  | [] => []
  end.

Definition strip (l : list ascii) : list ascii :=
  rev (lstrip (rev (lstrip l))).

(** Decimal digits with single underscores between digits.  [after_digit]
    says that the previous character was a digit: an underscore is accepted
    only there, and the text may end only there. *)
Fixpoint parse_digits (acc : Z) (after_digit : bool) (l : list ascii)
  : option Z :=
  match l with
  | [] => if after_digit then Some acc else None
  | c :: l' =>
      match digit_of c with
      | Some d => parse_digits (10 * acc + d) true l'
      | None =>
          if Ascii.eqb c "_" && after_digit
          then parse_digits acc false l'
          else None
      end
  end.

Definition int_of_chars (l : list ascii) : option Z :=
  match strip l with
  | "-"%char :: ds => Z.opp <$> parse_digits 0 false ds
  | "+"%char :: ds => parse_digits 0 false ds
  | ds => parse_digits 0 false ds
  end.

(** [int(s)] for a string [s], base ten. *)
Definition int_of_string (s : string) : option Z :=
  int_of_chars (list_ascii_of_string s).

(** [int(x)] for a float: truncation towards zero; [nan] and the
    infinities raise. *)
Definition int_of_float (f : spec_float) : result Z :=
  match f with
  | S754_zero _ => Ok 0
  | S754_infinity _ => Raise OverflowError
  | S754_nan => Raise ValueError
  | S754_finite s m e =>
      let n := Z.shiftl (Z.pos m) e in
      Ok (if s then - n else n)
  end.

(** [int(v)] *)
Definition int (v : value) : result Z :=
  match v with
  | VNone => Raise TypeError
  | VBool b => Ok (if b then 1 else 0)
  | VInt n => Ok n
  | VFloat f => int_of_float f
  | VStr s =>
      match int_of_string s with
      | Some n => Ok n
      | None => Raise ValueError
      end
  | VList _ => Raise TypeError
  | VDict _ => Raise TypeError
  end.

(** [str(n)] for an integer [n]: decimal, with a minus sign when
    negative. *)
Definition str_of_int (n : Z) : string :=
  NilZero.string_of_int (Z.to_int n).

(** [sub in s] for two strings. *)
Fixpoint is_prefix (p s : string) : bool :=
  match p, s with
  | EmptyString, _ => true
  | String a p', String b s' => Ascii.eqb a b && is_prefix p' s'
  | String _ _, EmptyString => false
  end.

Fixpoint is_substring (p s : string) : bool :=
  is_prefix p s ||
  match s with
  | EmptyString => false
  | String _ s' => is_substring p s'
  end.

(** [key in obj] for a string [key]: membership among the keys of a dict,
    among the elements of a list, substring of a string; the other values
    are not iterable. *)
Definition contains (key : string) (obj : value) : result bool :=
  match obj with
  | VDict d => Ok (match d !! key with Some _ => true | None => false end)
  | VList l =>
      Ok (existsb (λ x, match x with
                        | VStr s => String.eqb key s
                        | _ => false
                        end) l)
  | VStr s => Ok (is_substring key s)
  | _ => Raise TypeError
  end.

(** [obj[key]] for a string [key]: only a dict can be indexed by a
    string. *)
Definition getitem (obj : value) (key : string) : result value :=
  match obj with
  | VDict d =>
      match d !! key with
      | Some v => Ok v
      | None => Raise KeyError
      end
  | _ => Raise TypeError
  end.

(** [obj[key] = v] for a string [key]; the result is the object after the
    assignment. *)
Definition setitem (obj : value) (key : string) (v : value) : result value :=
  match obj with
  | VDict d => Ok (VDict (<[key := v]> d))
  | _ => Raise TypeError
  end.

(** [obj.get(key)]: [None] for a missing key; only a dict has [get]. *)
Definition get (obj : value) (key : string) : result value :=
  match obj with
  | VDict d => Ok (default VNone (d !! key))
  | _ => Raise AttributeError
  end.

(** [obj.items()]: only a dict has [items]. *)
Definition items (obj : value) : result (list (string * value)) :=
  match obj with
  | VDict d => Ok (map_to_list d)
  | _ => Raise AttributeError
  end.

(** The elements [for x in obj] runs over: the elements of a list, the
    keys of a dict, the characters of a string. *)
Definition iter (obj : value) : result (list value) :=
  match obj with
  | VList l => Ok l
  | VDict d => Ok (VStr <$> (map_to_list d).*1)
  | VStr s => Ok ((λ c, VStr (String c EmptyString)) <$> list_ascii_of_string s)
  | _ => Raise TypeError
  end.

End Py.

(** [v] with [int] applied when [int(v)] returns; used to state what the
    operations do to the fields they convert. *)
Definition as_int (v : value) : value :=
  match Py.int v with
  | Ok n => VInt n
  | Raise _ => v
  end.


(** [entry] is a dict whose "amount" [int] accepts. *)
Definition amount_convertible (entry : value) : Prop :=
  ∃ d v n, entry = VDict d ∧ d !! "amount" = Some v ∧ Py.int v = Ok n.

(** The result [r] with the field [key], holding [v], put into the dict it
    returns; an exception stays as it is. *)
Definition with_field (key : string) (v : value) (r : result value)
  : result value :=
  match r with
  | Ok (VDict d) => Ok (VDict (<[key := v]> d))
  | _ => r
  end.

(** ** The session, the client and the monad of the operations *)

(** What [requests] gives back for a POST: [json] decodes the body, or
    raises when the body is not JSON. *)
Record Response := { json : result value }.

(** The [requests] session: [post url body] sends [body] as JSON to [url].
    It raises on a transport failure. *)
Record Session := { post : string → value → result Response }.

Record Client := { _session : Session; host : string }.

Record request := { url : string; body : value }.

(** A computation that sends requests and returns or raises. *)
Definition M (A : Type) : Type := list request * result A.

Definition ret {A} (a : A) : M A := ([], Ok a).

Definition lift {A} (r : result A) : M A := ([], r).

Definition bind {A B} (m : M A) (k : A → M B) : M B :=
  match m with
  | (sent, Ok a) => let '(sent', r) := k a in ((sent ++ sent')%list, r)
  | (sent, Raise e) => (sent, Raise e)
  end.

Declare Scope py_scope.
Delimit Scope py_scope with py.
Notation "'let*' x := c 'in' k" := (bind c (λ x, k))
  (at level 10, x name, c at level 100, k at level 200) : py_scope.
Notation "'try' x := c 'in' k" := (result_bind c (λ x, k))
  (at level 10, x name, c at level 100, k at level 200) : py_scope.
#[local] Open Scope py_scope.

(** [for x in xs: body], where [body] updates the state [s] or raises. *)
Fixpoint for_in {A S} (xs : list A) (body : A → S → result S) (s : S)
  : result S :=
  match xs with
  | [] => Ok s
  | x :: xs' => try s' := body x s in for_in xs' body s'
  end.

(** A loop that assigns to every element of a list in place: the list holds
    the updated elements afterwards, unless an assignment raised. *)
Fixpoint for_each_update {A} (xs : list A) (body : A → result A)
  : result (list A) :=
  match xs with
  | [] => Ok []
  | x :: xs' =>
      try x' := body x in
      try xs'' := for_each_update xs' body in
      Ok (x' :: xs'')
  end.

(** [self._session.post(self.host, json=params)] *)
Definition session_post (self : Client) (params : value) : M Response :=
  ([ {| url := host self; body := params |} ],
   post (_session self) (host self) params).

(** Modelled from the spec: [raiblocks.models], from which client.py imports
    [Account], [Wallet] and [PublicKey], is not among the sources.  The spec
    describes each as a tag over a raw string that performs no validation:
    here each is a total function on values, otherwise arbitrary. *)
Class Models := {
  Account : value → value;
  Wallet : value → value;
  PublicKey : value → value
}.

(** The wrappers that keep the raw string as it is. *)
Definition raw_models : Models :=
  {| Account := λ s, s; Wallet := λ s, s; PublicKey := λ s, s |}.

(** A simulated node: every request is answered with the JSON value
    [resp]. *)
Definition simulated (resp : value) : Session :=
  {| post := λ _ _, Ok {| json := Ok resp |} |}.

Definition simulated_client (resp : value) : Client :=
  {| _session := simulated resp; host := "http://localhost:7076" |}.

(** What comes back to [self] for the request with body [params]: the
    decoded body of the response, or what [post] or [json] raised. *)
Definition reply (self : Client) (params : value) : result value :=
  try r := post (_session self) (host self) params in json r.

(** The node answers every request of [self] with the JSON value [resp]. *)
Definition node_returns (self : Client) (resp : value) : Prop :=
  ∀ params, reply self params = Ok resp.

(** Every request of [self] ends in the exception [e]: [post] raised it, or
    [json] did on the body that came back. *)
Definition node_raises (self : Client) (e : exn) : Prop :=
  ∀ params, reply self params = Raise e.

(** A session whose [post] always raises [e], as for a node that cannot be
    reached. *)
Definition unreachable (e : exn) : Session :=
  {| post := λ _ _, Raise e |}.

Definition unreachable_client (e : exn) : Client :=
  {| _session := unreachable e; host := "http://localhost:7076" |}.

(** [v] is a dict. *)
Definition is_dict (v : value) : bool :=
  match v with
  | VDict _ => true
  | _ => false
  end.

(** [v] is a list. *)
Definition is_list (v : value) : bool :=
  match v with
  | VList _ => true
  | _ => false
  end.

(** ** The bodies of the loops

    The operations below spell the bodies of their loops out, as the source
    does; the names given to them here are for the statements of the
    lemmas. *)

(** The item [k: int(v)] that the comprehension of [account_balance] adds to
    the dict [d] it builds. *)
Abbreviation int_item :=
  (λ (kv : string * value) (d : gmap string value),
     try n := Py.int kv.2 in Ok (<[kv.1 := VInt n]> d)) (only parsing).

(** [if key in resp: resp[key] = int(resp[key])] *)
Abbreviation int_field_if_present :=
  (λ (key : string) (resp : value),
     try present := Py.contains key resp in
     if present
     then try v := Py.getitem resp key in
          try n := Py.int v in
          Py.setitem resp key (VInt n)
     else Ok resp) (only parsing).

(** [entry['amount'] = int(entry['amount'])] *)
Abbreviation int_amount :=
  (λ entry : value,
     try v := Py.getitem entry "amount" in
     try n := Py.int v in
     Py.setitem entry "amount" (VInt n)) (only parsing).

(** [resp[key] = int(resp[key])], the body of the loop of [version]. *)
Abbreviation int_field :=
  (λ (key : string) (resp : value),
     try v := Py.getitem resp key in
     try n := Py.int v in
     Py.setitem resp key (VInt n)) (only parsing).

(** The characters of a number in decimal notation. *)
Abbreviation chars_of_uint d :=
  (list_ascii_of_string (NilEmpty.string_of_uint d)).

Section client.
Context `{Models}.

Definition preprocess_account (account_string : value) : value :=
  Account account_string.

Definition preprocess_wallet (wallet_string : value) : value :=
  Wallet wallet_string.

Definition preprocess_public_key (public_key_string : value) : value :=
  PublicKey public_key_string.

Definition preprocess_strbool (val : value) : value :=
  Py.or_ (Py.and_ val (VStr "true")) (VStr "false").

Definition preprocess_int (integer_string : value) : result value :=
  try n := Py.int integer_string in Ok (VStr (Py.str_of_int n)).

(** [Client.__init__]; [requests_Session] stands for a fresh
    [requests.Session()]. *)
Definition Client_init (requests_Session : Session)
    (host : option string) (session : option Session) : Client :=
  let host :=
    match host with
    | Some h => if String.eqb h "" then "http://localhost:7076" else h
    | None => "http://localhost:7076"
    end in
  let session := default requests_Session session in
  {| _session := session; host := host |}.

(** [params['action'] = action] assigns into the dict the caller passed
    (unless that dict is empty, which [or] replaces by a new one); what is
    modelled is the body that is sent, which is that dict after the
    assignment. *)
Definition call (self : Client) (action : value) (params : value)
  : M value :=
  let params := Py.or_ params (VDict ∅) in
  let* params := lift (Py.setitem params "action" action) in
  let* resp := session_post self params in
  lift (json resp).

Definition account_balance (self : Client) (account : value) : M value :=
  let account := preprocess_account account in
  let payload := VDict {[ "account" := account ]} in
  let* resp := call self (VStr "account_balance") payload in
  lift (try its := Py.items resp in
        try d := for_in its
                   (λ kv d, try n := Py.int kv.2 in Ok (<[kv.1 := VInt n]> d))
                   (∅ : gmap string value) in
        Ok (VDict d)).

Definition account_block_count (self : Client) (account : value)
  : M value :=
  let account := preprocess_account account in
  let payload := VDict {[ "account" := account ]} in
  let* resp := call self (VStr "account_block_count") payload in
  lift (try v := Py.getitem resp "block_count" in
        try n := Py.int v in
        Ok (VInt n)).

(** The payload [account_info] hands to [call]. *)
Definition account_info_payload (account representative weight pending : value)
  : gmap string value :=
  let account := preprocess_account account in
  let payload := {[ "account" := account ]} in
  let payload :=
    if Py.truthy representative
    then <["representative" := preprocess_strbool representative]> payload
    else payload in
  let payload :=
    if Py.truthy weight
    then <["weight" := preprocess_strbool weight]> payload
    else payload in
  let payload :=
    if Py.truthy pending
    then <["pending" := preprocess_strbool pending]> payload
    else payload in
  payload.

Definition account_info_keys : list string :=
  ["modified_timestamp"; "block_count"; "balance"; "pending"; "weight"].

Definition account_info (self : Client)
    (account representative weight pending : value) : M value :=
  let payload :=
    VDict (account_info_payload account representative weight pending) in
  let* resp := call self (VStr "account_info") payload in
  lift (for_in account_info_keys
          (λ key resp,
             try present := Py.contains key resp in
             if present
             then try v := Py.getitem resp key in
                  try n := Py.int v in
                  Py.setitem resp key (VInt n)
             else Ok resp)
          resp).

Definition account_create (self : Client) (wallet : value) : M value :=
  let wallet := preprocess_wallet wallet in
  let payload := VDict {[ "wallet" := wallet ]} in
  let* resp := call self (VStr "account_create") payload in
  lift (Py.getitem resp "account").

Definition account_get (self : Client) (key : value) : M value :=
  let key := preprocess_public_key key in
  let payload := VDict {[ "key" := key ]} in
  let* resp := call self (VStr "account_get") payload in
  lift (Py.getitem resp "account").

(** The loop assigns to the entries of [history] in place, so the list
    returned holds the updated entries.  The loop body raises on every
    element that is not a dict, so a [history] that is not a list comes
    back only when it has no element. *)
Definition account_history (self : Client) (account count : value)
  : M value :=
  let account := preprocess_account account in
  let* count := lift (preprocess_int count) in
  let payload := VDict (<["count" := count]> {[ "account" := account ]}) in
  let* resp := call self (VStr "account_history") payload in
  lift (try h := Py.get resp "history" in
        let history := Py.or_ h (VList []) in
        try entries := Py.iter history in
        try entries := for_each_update entries
                         (λ entry,
                            try v := Py.getitem entry "amount" in
                            try n := Py.int v in
                            Py.setitem entry "amount" (VInt n)) in
        Ok (match history with
            | VList _ => VList entries
            | _ => history
            end)).

Definition account_list (self : Client) (wallet : value) : M value :=
  let wallet := preprocess_wallet wallet in
  let payload := VDict {[ "wallet" := wallet ]} in
  let* resp := call self (VStr "account_list") payload in
  lift (try accounts := Py.get resp "accounts" in
        Ok (Py.or_ accounts (VList []))).

Definition version_keys : list string := ["rpc_version"; "store_version"].

Definition version (self : Client) : M value :=
  let* resp := call self (VStr "version") VNone in
  lift (for_in version_keys
          (λ key resp,
             try v := Py.getitem resp key in
             try n := Py.int v in
             Py.setitem resp key (VInt n))
          resp).

Definition stop (self : Client) : M value :=
  let* resp := call self (VStr "stop") VNone in
  lift (try b := Py.contains "success" resp in Ok (VBool b)).

End client.

(** ** Responses of a simulated node *)

Definition example_account : value :=
  VStr "xrb_3e3j5tkog48pnny9dmfzj1r16pg8t1e76dz5tmac6iq689wyjfpi00000000".

Definition example_wallet : value :=
  VStr "000D1BAEC8EC208142C99059B393051BAC8380F9B5A2E6B2489A277D81789F3F".

Definition balance_response : gmap string value :=
  <["balance" := VStr "10000"]> {[ "pending" := VStr "10000" ]}.

Definition info_response : gmap string value :=
  <["frontier" :=
      VStr "FF84533A571D953A596EA401FD41743AC85D04F406E76FDE4408EAED50B473C5"]>
  (<["balance" := VStr "235580100176034320859259343606608761791"]>
  (<["modified_timestamp" := VStr "1501793775"]>
  {[ "block_count" := VStr "33" ]})).

Definition history_entry : gmap string value :=
  <["hash" :=
      VStr "000D1BAEC8EC208142C99059B393051BAC8380F9B5A2E6B2489A277D81789F3F"]>
  (<["type" := VStr "receive"]>
  (<["account" := example_account]>
  {[ "amount" := VStr "100000000000000000000000000000000" ]})).

Definition history_response : gmap string value :=
  {[ "history" := VList [VDict history_entry] ]}.

Definition version_response : gmap string value :=
  <["rpc_version" := VStr "1"]>
  (<["store_version" := VStr "10"]>
  {[ "node_vendor" := VStr "X" ]}).

Definition stop_response : gmap string value :=
  {[ "success" := VStr "" ]}.

Definition null_lists_response : gmap string value :=
  <["history" := VNone]> {[ "accounts" := VNone ]}.

Definition error_response : gmap string value :=
  {[ "error" := VStr "Account not found" ]}.

Definition block_count_response : gmap string value :=
  {[ "block_count" := VStr "19" ]}.

Definition create_response : gmap string value :=
  {[ "account" := example_account ]}.

Definition list_response : gmap string value :=
  {[ "accounts" := VList [example_account] ]}.

Definition entry_without_amount : gmap string value :=
  {[ "type" := VStr "receive" ]}.

Definition bad_history_response : gmap string value :=
  {[ "history" := VList [VDict history_entry; VDict entry_without_amount] ]}.

Definition text_history_response : gmap string value :=
  {[ "history" := VStr "none" ]}.

Definition bad_info_response : gmap string value :=
  <["balance" := VStr "unknown"]> {[ "block_count" := VStr "33" ]}.

Definition info_converted : gmap string value :=
  <["balance" := VInt 235580100176034320859259343606608761791]>
  (<["modified_timestamp" := VInt 1501793775]>
  (<["block_count" := VInt 33]> info_response)).

Definition balance_converted : gmap string value :=
  <["balance" := VInt 10000]> {[ "pending" := VInt 10000 ]}.

(** ** Running the model *)

Example int_of_string_examples :
  Py.int_of_string "10" = Some 10 ∧
  Py.int_of_string " -42 " = Some (-42) ∧
  Py.int_of_string "+1_000" = Some 1000 ∧
  Py.int_of_string "1__0" = None ∧
  Py.int_of_string "_1" = None ∧
  Py.int_of_string "1_" = None ∧
  Py.int_of_string "" = None ∧
  Py.int_of_string "-" = None ∧
  Py.int_of_string "1 0" = None ∧
  Py.int_of_string "235580100176034320859259343606608761791"
    = Some 235580100176034320859259343606608761791 ∧
  Py.int_of_string "Account not found" = None.
Proof. repeat split; vm_compute; reflexivity. Qed.

Example int_of_string_control_characters :
  Py.int_of_string (String (ascii_of_nat 9) "10") = Some 10 ∧
  Py.int_of_string (String (ascii_of_nat 11) "10") = Some 10 ∧
  Py.int_of_string (String (ascii_of_nat 12) "10") = Some 10 ∧
  Py.int_of_string (String (ascii_of_nat 28) "10") = None ∧
  Py.int_of_string (String (ascii_of_nat 29) "10") = None ∧
  Py.int_of_string (String (ascii_of_nat 30) "10") = None ∧
  Py.int_of_string (String (ascii_of_nat 31) "10") = None.
Proof. repeat split; vm_compute; reflexivity. Qed.

Example str_of_int_examples :
  Py.str_of_int 0 = "0" ∧ Py.str_of_int 1 = "1" ∧ Py.str_of_int (-120) = "-120".
Proof. repeat split; reflexivity. Qed.

Example version_example :
  version (simulated_client (VDict version_response))
  = ([ {| url := "http://localhost:7076";
          body := VDict {[ "action" := VStr "version" ]} |} ],
     Ok (VDict (<["rpc_version" := VInt 1]>
               (<["store_version" := VInt 10]>
               {[ "node_vendor" := VStr "X" ]})))).
Proof. vm_compute. reflexivity. Qed.

Example account_info_weight_example :
  (@account_info raw_models (simulated_client (VDict info_response))
     example_account (VBool false) (VBool true) (VBool false))
  = ([ {| url := "http://localhost:7076";
          body := VDict (<["action" := VStr "account_info"]>
                        (<["weight" := VStr "true"]>
                         {[ "account" := example_account ]})) |} ],
     Ok (VDict (<["balance" := VInt 235580100176034320859259343606608761791]>
               (<["modified_timestamp" := VInt 1501793775]>
               (<["block_count" := VInt 33]> info_response))))).
Proof. vm_compute. reflexivity. Qed.

Example account_history_example :
  (@account_history raw_models (simulated_client (VDict history_response))
     example_account (VStr " 01 ")).2
  = Ok (VList [VDict (<["amount" := VInt 100000000000000000000000000000000]>
                        history_entry)]).
Proof. vm_compute. reflexivity. Qed.

Example account_history_bad_count_example :
  @account_history raw_models (simulated_client (VDict history_response))
    example_account (VStr "one")
  = ([], Raise ValueError).
Proof. vm_compute. reflexivity. Qed.

Example account_block_count_missing_example :
  (@account_block_count raw_models (simulated_client (VDict error_response))
     example_account).2
  = Raise KeyError.
Proof. vm_compute. reflexivity. Qed.

Example stop_examples :
  (stop (simulated_client (VDict stop_response))).2 = Ok (VBool true) ∧
  (stop (simulated_client (VDict error_response))).2 = Ok (VBool false) ∧
  (stop (simulated_client (VList [VStr "success"]))).2 = Ok (VBool true) ∧
  (stop (simulated_client VNone)).2 = Raise TypeError.
Proof. repeat split. Qed.

Example int_examples :
  Py.int (VBool true) = Ok 1 ∧
  Py.int (VFloat (S754_finite true 15 (-2))) = Ok (-3) ∧
  Py.int (VFloat (S754_finite false 5 3)) = Ok 40 ∧
  Py.int VNone = Raise TypeError ∧
  Py.int (VList []) = Raise TypeError.
Proof. repeat split. Qed.

(** ** Facts about the builtins *)

Lemma or_dict_empty (d : gmap string value) :
  Py.or_ (VDict d) (VDict ∅) = VDict d.
Proof.
  unfold Py.or_; simpl.
  destruct (Nat.eqb_spec (size d) 0) as [Hsz|Hsz]; simpl; [|done].
  apply map_size_empty_iff in Hsz. by subst.
Qed.

Lemma or_falsy (v w : value) : Py.truthy v = false → Py.or_ v w = w.
Proof. unfold Py.or_. by intros ->. Qed.

Lemma preprocess_strbool_truthy (v : value) :
  Py.truthy v = true → preprocess_strbool v = VStr "true".
Proof. unfold preprocess_strbool, Py.and_, Py.or_. by intros ->. Qed.

Lemma preprocess_strbool_falsy (v : value) :
  Py.truthy v = false → preprocess_strbool v = VStr "false".
Proof.
  intros Hv. unfold preprocess_strbool, Py.and_. rewrite Hv.
  by apply or_falsy.
Qed.

(** ** [int(str(n))] is [n] *)













(** ** Facts about [call] *)

Lemma call_dict (self : Client) (action : value) (d : gmap string value) :
  call self action (VDict d)
  = ([ {| url := host self; body := VDict (<["action" := action]> d) |} ],
     reply self (VDict (<["action" := action]> d))).
Proof.
  unfold call, reply. rewrite or_dict_empty. simpl.
  unfold session_post. simpl.
  by destruct (post _ _ _).
Qed.

Lemma call_none (self : Client) (action : value) :
  call self action VNone
  = ([ {| url := host self; body := VDict {[ "action" := action ]} |} ],
     reply self (VDict {[ "action" := action ]})).
Proof.
  unfold call, reply. simpl. unfold session_post. simpl.
  by destruct (post _ _ _).
Qed.

Lemma reply_node_returns (self : Client) (resp params : value) :
  node_returns self resp → reply self params = Ok resp.
Proof. intros Hn. apply Hn. Qed.

Lemma simulated_node_returns (resp : value) :
  node_returns (simulated_client resp) resp.
Proof. by intros params. Qed.

(** ** The dict comprehension of [account_balance] *)

Lemma as_int_ok (v : value) (n : Z) : Py.int v = Ok n → as_int v = VInt n.
Proof. unfold as_int. by intros ->. Qed.

Lemma for_in_int_items_ok (its : list (string * value))
    (acc : gmap string value) :
  Forall (λ kv, ∃ n, Py.int kv.2 = Ok n) its →
  for_in its int_item acc
  = Ok (foldl (λ d kv, <[kv.1 := as_int kv.2]> d) acc its).
Proof.
  intros Hall. revert acc.
  induction Hall as [|kv its [n Hn] _ IH]; intros acc; simpl; [done|].
  rewrite Hn. simpl. rewrite IH. by rewrite (as_int_ok _ _ Hn).
Qed.

Lemma for_in_int_items_raises (its : list (string * value))
    (acc : gmap string value) :
  Exists (λ kv, raises (Py.int kv.2)) its →
  raises (for_in its int_item acc).
Proof.
  intros Hex. revert acc.
  induction its as [|kv its IH]; intros acc; [by inversion Hex|].
  simpl. destruct (Py.int kv.2) as [n|e] eqn:Hkv; simpl.
  - apply IH. inversion Hex as [? ? [e He]|]; subst; [congruence|done].
  - by exists e.
Qed.

Lemma foldl_insert_lookup (f : value → value)
    (its : list (string * value)) (acc : gmap string value) (k : string) :
  NoDup its.*1 →
  foldl (λ d kv, <[kv.1 := f kv.2]> d) acc its !! k
  = match (list_to_map its : gmap string value) !! k with
    | Some v => Some (f v)
    | None => acc !! k
    end.
Proof.
  revert acc. induction its as [|[k0 v0] its IH]; intros acc Hnd; simpl.
  { by rewrite lookup_empty. }
  apply NoDup_cons in Hnd as [Hk0 Hnd]. rewrite (IH _ Hnd).
  destruct (decide (k0 = k)) as [->|Hne].
  - rewrite !lookup_insert_eq.
    apply (not_elem_of_list_to_map_1 (M := gmap string)) in Hk0.
    simpl in Hk0. by rewrite Hk0.
  - rewrite (lookup_insert_ne (list_to_map its)) by done.
    destruct (list_to_map its !! k); [done|]. by rewrite lookup_insert_ne.
Qed.

Lemma for_in_int_items_map (m : gmap string value) :
  (∀ k v, m !! k = Some v → ∃ n, Py.int v = Ok n) →
  for_in (map_to_list m) int_item ∅ = Ok (as_int <$> m).
Proof.
  intros Hall. rewrite for_in_int_items_ok.
  - f_equal. apply map_eq. intros k.
    rewrite foldl_insert_lookup by apply NoDup_fst_map_to_list.
    rewrite list_to_map_to_list, lookup_fmap, lookup_empty.
    by destruct (m !! k).
  - apply Forall_forall. intros [k v] Hin. simpl.
    apply elem_of_map_to_list in Hin. eauto.
Qed.

Lemma for_in_int_items_map_raises (m : gmap string value) (k : string)
    (v : value) :
  m !! k = Some v → raises (Py.int v) →
  raises (for_in (map_to_list m) int_item ∅).
Proof.
  intros Hk Hv. apply for_in_int_items_raises.
  apply Exists_exists. exists (k, v). split; [|done].
  by apply elem_of_map_to_list.
Qed.

(** ** The conversion loop of [account_info] *)

Lemma for_in_int_fields (keys : list string) (d : gmap string value) :
  (∀ k v, k ∈ keys → d !! k = Some v → ∃ n, Py.int v = Ok n) →
  ∃ d', for_in keys int_field_if_present (VDict d) = Ok (VDict d') ∧
        ∀ k, d' !! k = if decide (k ∈ keys) then as_int <$> d !! k
                       else d !! k.
Proof.
  revert d. induction keys as [|key keys IH]; intros d Hconv.
  { exists d. split; [done|]. intros k. by rewrite decide_False by set_solver. }
  cbn [for_in]. simpl Py.contains. cbn [result_bind].
  destruct (d !! key) as [v|] eqn:Hkey.
  - destruct (Hconv key v) as [n Hn]; [set_solver|done|].
    simpl. rewrite Hkey. simpl. rewrite Hn. simpl.
    destruct (IH (<[key := VInt n]> d)) as (d' & Hrun & Hd').
    { intros k w Hk. destruct (decide (key = k)) as [<-|Hne].
      - rewrite lookup_insert_eq. intros [= <-]. by exists n.
      - rewrite lookup_insert_ne by done. apply Hconv. set_solver. }
    exists d'. split; [done|]. intros k. rewrite Hd'.
    destruct (decide (key = k)) as [<-|Hne].
    + rewrite lookup_insert_eq, Hkey, (decide_True (P := key ∈ key :: keys))
        by set_solver.
      simpl. rewrite (as_int_ok _ _ Hn). by case_decide.
    + rewrite lookup_insert_ne by done.
      destruct (decide (k ∈ keys)) as [Hin|Hnin].
      * by rewrite decide_True by (by right).
      * rewrite decide_False; [done|].
        by intros [->|?]%elem_of_cons.
  - destruct (IH d) as (d' & Hrun & Hd').
    { intros k w Hk. apply Hconv. set_solver. }
    exists d'. split; [done|]. intros k. rewrite Hd'.
    destruct (decide (key = k)) as [<-|Hne].
    + rewrite Hkey. by repeat case_decide.
    + destruct (decide (k ∈ keys)) as [Hin|Hnin].
      * by rewrite decide_True by (by right).
      * rewrite decide_False; [done|].
        by intros [->|?]%elem_of_cons.
Qed.

(** ** The loop of [account_history] *)


(** ** A field that the loops do not name *)

Lemma for_in_int_items_raise_exact (its : list (string * value))
    (acc : gmap string value) (e : exn) :
  Exists (λ kv, Py.int kv.2 = Raise e) its →
  Forall (λ kv, ∀ e', Py.int kv.2 = Raise e' → e' = e) its →
  for_in its int_item acc = Raise e.
Proof.
  intros Hex Hall. revert acc.
  induction Hall as [|kv its Hkv Hall IH]; intros acc; [by inversion Hex|].
  simpl. destruct (Py.int kv.2) as [n|e'] eqn:Hint; simpl.
  - apply IH. inversion Hex as [? ? He|]; subst; [congruence|done].
  - by rewrite (Hkv e').
Qed.

Lemma for_in_with_field (keys : list string)
    (body : string → value → result value) (key : string) (v : value)
    (d : gmap string value) :
  (∀ k d r, k ∈ keys → body k (VDict d) = Ok r → ∃ d', r = VDict d') →
  (∀ k d, k ∈ keys →
          body k (VDict (<[key := v]> d))
          = with_field key v (body k (VDict d))) →
  for_in keys body (VDict (<[key := v]> d))
  = with_field key v (for_in keys body (VDict d)).
Proof.
  intros Hdict Hstep. revert d.
  induction keys as [|k keys IH]; intros d; [done|].
  cbn [for_in]. rewrite Hstep by by left.
  destruct (body k (VDict d)) as [r|e] eqn:Hbody; [|done].
  destruct (Hdict k d r) as [d' ->]; [by left|done|].
  simpl. apply IH.
  - intros k' d0 r Hk'. apply Hdict. by right.
  - intros k' d0 Hk'. apply Hstep. by right.
Qed.

Lemma int_field_if_present_with_field (k key : string) (v : value)
    (d : gmap string value) :
  k ≠ key →
  int_field_if_present k (VDict (<[key := v]> d))
  = with_field key v (int_field_if_present k (VDict d)).
Proof.
  intros Hne. simpl. rewrite lookup_insert_ne by done.
  destruct (d !! k) as [w|] eqn:Hw; simpl; [|done].
  rewrite ?lookup_insert_ne by done. rewrite ?Hw. simpl.
  destruct (Py.int w) as [n|e]; simpl; [|done].
  by rewrite insert_insert_ne.
Qed.

Lemma int_field_with_field (k key : string) (v : value)
    (d : gmap string value) :
  k ≠ key →
  int_field k (VDict (<[key := v]> d))
  = with_field key v (int_field k (VDict d)).
Proof.
  intros Hne. simpl. rewrite lookup_insert_ne by done.
  destruct (d !! k) as [w|] eqn:Hw; simpl; [|done].
  destruct (Py.int w) as [n|e]; simpl; [|done].
  by rewrite insert_insert_ne.
Qed.

Lemma int_field_if_present_dict (k : string) (d : gmap string value)
    (r : value) :
  int_field_if_present k (VDict d) = Ok r → ∃ d', r = VDict d'.
Proof.
  simpl. destruct (d !! k) as [w|] eqn:Hw; simpl.
  - rewrite ?Hw. simpl. destruct (Py.int w); simpl; [|done].
    intros [= <-]. eauto.
  - intros [= <-]. eauto.
Qed.

Lemma int_field_dict (k : string) (d : gmap string value) (r : value) :
  int_field k (VDict d) = Ok r → ∃ d', r = VDict d'.
Proof.
  simpl. destruct (d !! k) as [w|]; simpl; [|done].
  destruct (Py.int w); simpl; [|done]. intros [= <-]. eauto.
Qed.

Lemma for_in_int_items_field (resp d' : gmap string value) (key : string)
    (v : value) :
  resp !! key = Some v →
  for_in (map_to_list (delete key resp)) int_item ∅ = Ok d' →
  for_in (map_to_list resp) int_item ∅
  = match Py.int v with
    | Ok n => Ok (<[key := VInt n]> d')
    | Raise e => Raise e
    end.
Proof.
  intros Hkey Hrest.
  assert (Hconv : ∀ k w, delete key resp !! k = Some w →
                         ∃ n, Py.int w = Ok n).
  { intros k w Hw. destruct (Py.int w) as [n|e] eqn:Hn; [by exists n|].
    destruct (for_in_int_items_map_raises (delete key resp) k w Hw)
      as [e' He']; [by exists e|congruence]. }
  rewrite (for_in_int_items_map _ Hconv) in Hrest.
  injection Hrest as <-.
  destruct (Py.int v) as [n|e] eqn:Hv.
  - rewrite for_in_int_items_map.
    + f_equal. rewrite <- (insert_delete_id resp key v Hkey) at 1.
      by rewrite fmap_insert, (as_int_ok _ _ Hv).
    + intros k w Hw. destruct (decide (key = k)) as [<-|Hne].
      * exists n. congruence.
      * apply (Hconv k). by rewrite lookup_delete_ne.
  - apply for_in_int_items_raise_exact.
    + apply Exists_exists. exists (key, v). split; [|done].
      by apply elem_of_map_to_list.
    + apply Forall_forall. intros [k w] Hin e' He'. simpl in He'.
      apply elem_of_map_to_list in Hin.
      destruct (decide (key = k)) as [<-|Hne]; [congruence|].
      destruct (Hconv k w) as [n Hn]; [by rewrite lookup_delete_ne|].
      congruence.
Qed.

Lemma bind_lift_ok {A B} (a : A) (k : A → M B) : bind (lift (Ok a)) k = k a.
Proof. unfold bind, lift. by destruct (k a). Qed.

(** Membership in a list that is written out. *)
Ltac in_list := repeat first [by left | right].

(** A name is not in a list of other names that is written out. *)
Ltac not_in_list Hin :=
  repeat (apply elem_of_cons in Hin as [Heq|Hin]; [discriminate Heq|]);
  by apply elem_of_nil in Hin.

(** From [k ∈ keys], for a list [keys] that is written out, to the cases of
    [k]; each case is closed by [tac]. *)
Ltac each_of Hk tac :=
  repeat (apply elem_of_cons in Hk as [->|Hk]; [tac|]);
  by apply elem_of_nil in Hk.

(** Unfold one operation up to the reply of the node. *)
Ltac run_call Hnode :=
  unfold bind; first [rewrite call_dict | rewrite call_none];
  rewrite (reply_node_returns _ _ _ Hnode); cbn [lift fst snd].

Section client_facts.
Context `{Models}.

Lemma preprocess_int_ok (count : value) (n : Z) :
  Py.int count = Ok n → preprocess_int count = Ok (VStr (Py.str_of_int n)).
Proof. unfold preprocess_int. by intros ->. Qed.

Lemma sent_by_bind_lift {A B} (m : M A) (k : A → result B) :
  (bind m (λ a, lift (k a))).1 = m.1.
Proof.
  destruct m as [sent [a|e]]; simpl; [|done]. by rewrite app_nil_r.
Qed.

Lemma account_info_lookup (self : Client)
    (account representative weight pending : value)
    (resp : gmap string value) :
  node_returns self (VDict resp) →
  (∀ k v, k ∈ account_info_keys → resp !! k = Some v →
          ∃ n, Py.int v = Ok n) →
  ∃ d, (account_info self account representative weight pending).2
         = Ok (VDict d) ∧
       ∀ k, d !! k = if decide (k ∈ account_info_keys)
                     then as_int <$> resp !! k else resp !! k.
Proof.
  intros Hnode Hconv.
  destruct (for_in_int_fields account_info_keys resp Hconv)
    as (d & Hrun & Hd).
  exists d. split; [|done].
  unfold account_info. run_call Hnode. exact Hrun.
Qed.

(** C1: when every value of the response mapping is a string that encodes
    an integer, [account_balance] returns a mapping with the same keys in
    which every value is the integer its string encodes, and none is a
    string. *)
Theorem account_balance_ints (self : Client) (account : value)
    (resp : gmap string value) :
  node_returns self (VDict resp) →
  (∀ k v, resp !! k = Some v →
          ∃ s n, v = VStr s ∧ Py.int_of_string s = Some n) →
  ∃ d, (account_balance self account).2 = Ok (VDict d) ∧
       dom d = dom resp ∧
       (∀ k v, d !! k = Some v →
               ∃ s n, resp !! k = Some (VStr s) ∧
                      Py.int_of_string s = Some n ∧ v = VInt n).
Proof.
  intros Hnode Hints. exists (as_int <$> resp).
  assert (Hok : ∀ k v, resp !! k = Some v → ∃ n, Py.int v = Ok n).
  { intros k v Hk. destruct (Hints k v Hk) as (s & n & -> & Hs).
    exists n. simpl. by rewrite Hs. }
  split; [|split].
  - unfold account_balance. run_call Hnode. simpl.
    by rewrite (for_in_int_items_map _ Hok).
  - apply dom_fmap_L.
  - intros k v. rewrite lookup_fmap.
    destruct (resp !! k) as [w|] eqn:Hk; [|done].
    destruct (Hints k w Hk) as (s & n & -> & Hs).
    simpl. unfold as_int. simpl. rewrite Hs. intros [= <-]. eauto.
Qed.

(** C2: the body [account_info] sends holds each of "representative",
    "weight" and "pending" exactly when the flag given for it is truthy,
    and then with the string "true" as its value; with the three flags at
    [False] the payload handed to [call] has the account alone, to which
    [call] adds the action. *)
Theorem account_info_flags (self : Client)
    (account representative weight pending : value) :
  let payload := account_info_payload account representative weight pending in
  let sent := <["action" := VStr "account_info"]> payload in
  (account_info self account representative weight pending).1
    = [ {| url := host self; body := VDict sent |} ] ∧
  sent !! "account" = Some (Account account) ∧
  sent !! "representative"
    = (if Py.truthy representative then Some (VStr "true") else None) ∧
  sent !! "weight"
    = (if Py.truthy weight then Some (VStr "true") else None) ∧
  sent !! "pending"
    = (if Py.truthy pending then Some (VStr "true") else None) ∧
  account_info_payload account (VBool false) (VBool false) (VBool false)
    = {[ "account" := Account account ]} ∧
  (account_info self account (VBool false) (VBool false) (VBool false)).1
    = [ {| url := host self;
           body := VDict (<["action" := VStr "account_info"]>
                            {[ "account" := Account account ]}) |} ].
Proof.
  intros payload sent. unfold account_info.
  rewrite !sent_by_bind_lift, !call_dict. cbn [fst].
  split; [done|].
  subst sent payload. unfold account_info_payload, preprocess_account.
  destruct (Py.truthy representative) eqn:Hr;
    destruct (Py.truthy weight) eqn:Hw;
    destruct (Py.truthy pending) eqn:Hp;
    rewrite ?(preprocess_strbool_truthy _ Hr),
            ?(preprocess_strbool_truthy _ Hw),
            ?(preprocess_strbool_truthy _ Hp);
    repeat split; by simplify_map_eq.
Qed.

(** C3: when the response mapping has no "history" field,
    [account_history] returns the empty list, and when it has no "accounts"
    field, [account_list] returns the empty list. *)
Theorem missing_field_gives_empty_list (self : Client)
    (account count wallet : value) (n : Z) (resp : gmap string value) :
  node_returns self (VDict resp) →
  Py.int count = Ok n →
  (resp !! "history" = None →
     (account_history self account count).2 = Ok (VList [])) ∧
  (resp !! "accounts" = None →
     (account_list self wallet).2 = Ok (VList [])).
Proof.
  intros Hnode Hcount. split; intros Hmiss.
  - unfold account_history. rewrite (preprocess_int_ok _ _ Hcount).
    cbn [lift bind]. run_call Hnode. simpl. by rewrite Hmiss.
  - unfold account_list. run_call Hnode. simpl. by rewrite Hmiss.
Qed.

(** C4: the body [call] sends is the caller's [params] with [action] put
    under the key "action": that key holds [action] whatever [params] held
    there, every other key holds what it held in [params], and omitted
    [params] give the body that has "action" alone. *)
Theorem call_injects_action (self : Client) (action : value)
    (params : gmap string value) :
  let payload := <["action" := action]> params in
  (call self action (VDict params)).1
    = [ {| url := host self; body := VDict payload |} ] ∧
  payload !! "action" = Some action ∧
  (∀ k, k ≠ "action" → payload !! k = params !! k) ∧
  (call self action VNone).1
    = [ {| url := host self; body := VDict {[ "action" := action ]} |} ].
Proof.
  intros payload. rewrite call_dict, call_none. repeat split.
  - apply lookup_insert_eq.
  - intros k Hk. by apply lookup_insert_ne.
Qed.

(** C5, as the code has it: on a response mapping in which every field
    among "modified_timestamp", "block_count", "balance", "pending" and
    "weight" that is present holds a value [int] accepts, [account_info]
    converts these five fields to integers, each when it is present, and
    returns every other field as it came. *)
Theorem account_info_converts_five (self : Client)
    (account representative weight pending : value)
    (resp : gmap string value) :
  let five :=
    ["modified_timestamp"; "block_count"; "balance"; "pending"; "weight"] in
  node_returns self (VDict resp) →
  (∀ k v, k ∈ five → resp !! k = Some v → ∃ n, Py.int v = Ok n) →
  ∃ d, (account_info self account representative weight pending).2
         = Ok (VDict d) ∧
       (∀ k v n, k ∈ five → resp !! k = Some v →
                 Py.int v = Ok n → d !! k = Some (VInt n)) ∧
       (∀ k, k ∈ five → resp !! k = None → d !! k = None) ∧
       (∀ k, k ∉ five → d !! k = resp !! k).
Proof.
  intros five Hnode Hconv.
  destruct (account_info_lookup self account representative weight pending
              resp Hnode Hconv) as (d & Hrun & Hd).
  change account_info_keys with five in Hd.
  exists d. split; [done|repeat split].
  - intros k v n Hk Hv Hn.
    by rewrite Hd, decide_True, Hv, <- (as_int_ok _ _ Hn).
  - intros k Hk Hnone. by rewrite Hd, decide_True, Hnone.
  - intros k Hk. by rewrite Hd, decide_False.
Qed.

(** C6: when the response mapping holds "rpc_version" and "store_version"
    as numeric strings, [version] returns the mapping with these two fields
    replaced by the integers they encode and every other field as it
    came. *)
Theorem version_converts_both (self : Client) (resp : gmap string value)
    (rpc store : string) (n m : Z) :
  node_returns self (VDict resp) →
  resp !! "rpc_version" = Some (VStr rpc) →
  Py.int_of_string rpc = Some n →
  resp !! "store_version" = Some (VStr store) →
  Py.int_of_string store = Some m →
  let d := <["store_version" := VInt m]> (<["rpc_version" := VInt n]> resp) in
  (version self).2 = Ok (VDict d) ∧
  d !! "rpc_version" = Some (VInt n) ∧
  d !! "store_version" = Some (VInt m) ∧
  (∀ k, k ∉ version_keys → d !! k = resp !! k).
Proof.
  intros Hnode Hrpc Hn Hstore Hm d. subst d. repeat split.
  - unfold version. run_call Hnode. simpl.
    rewrite Hrpc. simpl. rewrite Hn. simpl.
    rewrite lookup_insert_ne by done.
    rewrite Hstore. simpl. by rewrite Hm.
  - by rewrite lookup_insert_ne, lookup_insert_eq.
  - by rewrite lookup_insert_eq.
  - intros k Hk. unfold version_keys in Hk.
    rewrite !lookup_insert_ne; [done|intros <-; apply Hk..].
    + by left.
    + right; by left.
Qed.

(** C7: on a response mapping, [stop] returns [True] exactly when the
    mapping has the key "success", whatever is stored under it, and [False]
    when the key is absent. *)
Theorem stop_success_key (self : Client) (resp : gmap string value) :
  node_returns self (VDict resp) →
  ∃ b, (stop self).2 = Ok (VBool b) ∧
       (b = true ↔ is_Some (resp !! "success")) ∧
       (b = false ↔ resp !! "success" = None).
Proof.
  intros Hnode. unfold stop. run_call Hnode. simpl.
  destruct (resp !! "success") as [v|]; eexists; (split; [reflexivity|]).
  - split; [by split; eauto | split; [done | by intros ?]].
  - split; [split; [done | by intros [? ?]] | done].
Qed.


(** C9, as the code has it: no operation looks at an error field; each
    treats it as any field it does not name.  For a response mapping that
    holds [v] under a key that is none of the names the operations read,
    [account_info] and [version] return what they return for the response
    without the field, with the field put back as it came;
    [account_block_count], [account_create], [account_get],
    [account_history], [account_list] and [stop] do what they do for the
    response without the field; [account_balance] applies [int] to it as to
    every other field: when the other fields are accepted it returns the
    field converted if [int] accepts [v], and raises the exception of [int]
    if [int] rejects [v]. *)
Theorem error_field_not_special (self self' : Client)
    (account representative weight pending wallet pubkey count : value)
    (resp : gmap string value) (key : string) (v : value) :
  node_returns self (VDict resp) →
  node_returns self' (VDict (delete key resp)) →
  resp !! key = Some v →
  key ∉ ["modified_timestamp"; "block_count"; "balance"; "pending"; "weight";
         "account"; "history"; "accounts"; "rpc_version"; "store_version";
         "success"] →
  (account_info self account representative weight pending).2
    = with_field key v
        (account_info self' account representative weight pending).2 ∧
  (version self).2 = with_field key v (version self').2 ∧
  (account_block_count self account).2
    = (account_block_count self' account).2 ∧
  (account_create self wallet).2 = (account_create self' wallet).2 ∧
  (account_get self pubkey).2 = (account_get self' pubkey).2 ∧
  (account_history self account count).2
    = (account_history self' account count).2 ∧
  (account_list self wallet).2 = (account_list self' wallet).2 ∧
  (stop self).2 = (stop self').2 ∧
  (∀ d', (account_balance self' account).2 = Ok (VDict d') →
         (account_balance self account).2
         = match Py.int v with
           | Ok n => Ok (VDict (<[key := VInt n]> d'))
           | Raise e => Raise e
           end).
Proof.
  intros Hnode Hnode' Hkey Hout.
  assert (Hresp : <[key := v]> (delete key resp) = resp)
    by by apply insert_delete_id.
  assert (Hget : ∀ k, k ∈ ["block_count"; "account"; "history"; "accounts";
                           "success"] → delete key resp !! k = resp !! k).
  { intros k Hk. apply lookup_delete_ne. intros ->.
    each_of Hk ltac:(apply Hout; in_list). }
  split; [|split].
  - unfold account_info, bind.
    rewrite !call_dict, (reply_node_returns _ _ _ Hnode),
      (reply_node_returns _ _ _ Hnode'). cbn [lift snd].
    rewrite <- Hresp at 1. apply for_in_with_field.
    + intros k d r _. apply int_field_if_present_dict.
    + intros k d Hk. apply int_field_if_present_with_field. intros ->.
      unfold account_info_keys in Hk.
      each_of Hk ltac:(apply Hout; in_list).
  - unfold version, bind.
    rewrite !call_none, (reply_node_returns _ _ _ Hnode),
      (reply_node_returns _ _ _ Hnode'). cbn [lift snd].
    rewrite <- Hresp at 1. apply for_in_with_field.
    + intros k d r _. apply int_field_dict.
    + intros k d Hk. apply int_field_with_field. intros ->.
      unfold version_keys in Hk.
      each_of Hk ltac:(apply Hout; in_list).
  - unfold account_history.
    destruct (preprocess_int count) as [c|e];
      [rewrite !bind_lift_ok|].
    2: { unfold account_block_count, account_create, account_get,
           account_list, stop, account_balance, bind.
         rewrite !call_dict, !call_none, !(reply_node_returns _ _ _ Hnode),
           !(reply_node_returns _ _ _ Hnode'). cbn [lift snd Py.getitem
           Py.get Py.contains result_bind].
         rewrite !Hget by in_list.
         repeat (split; [done|]).
         intros d' Hd'. simpl in Hd'. simpl.
         destruct (for_in (map_to_list (delete key resp)) _ _)
           as [d0|] eqn:Hd0; [|done].
         injection Hd' as ->.
         rewrite (for_in_int_items_field resp d' key v Hkey Hd0).
         by destruct (Py.int v). }
    unfold account_block_count, account_create, account_get,
      account_list, stop, account_balance, bind.
    rewrite !call_dict, !call_none, !(reply_node_returns _ _ _ Hnode),
      !(reply_node_returns _ _ _ Hnode'). cbn [lift snd Py.getitem
      Py.get Py.contains result_bind].
    rewrite !Hget by in_list.
    repeat (split; [done|]).
    intros d' Hd'. simpl in Hd'. simpl.
         destruct (for_in (map_to_list (delete key resp)) _ _)
           as [d0|] eqn:Hd0; [|done].
         injection Hd' as ->.
         rewrite (for_in_int_items_field resp d' key v Hkey Hd0).
         by destruct (Py.int v).
Qed.

(** C10: when the field "history" (for [account_history]) or "accounts"
    (for [account_list]) is present with a falsy value, such as [None] or
    an empty list, the operation returns the empty list and not that
    value. *)
Theorem falsy_field_gives_empty_list (self : Client)
    (account count wallet v : value) (n : Z) (resp : gmap string value) :
  node_returns self (VDict resp) →
  Py.int count = Ok n →
  Py.truthy v = false →
  (resp !! "history" = Some v →
     (account_history self account count).2 = Ok (VList [])) ∧
  (resp !! "accounts" = Some v →
     (account_list self wallet).2 = Ok (VList [])).
Proof.
  intros Hnode Hcount Hv. split; intros Hfield.
  - unfold account_history. rewrite (preprocess_int_ok _ _ Hcount).
    cbn [lift bind]. run_call Hnode. simpl.
    rewrite Hfield. simpl. by rewrite (or_falsy _ _ Hv).
  - unfold account_list. run_call Hnode. simpl.
    rewrite Hfield. simpl. by rewrite (or_falsy _ _ Hv).
Qed.

End client_facts.

(** ** The theorems at the responses of a simulated node *)

(** Split a lookup in a map written with inserts into its cases. *)
Ltac lookup_cases H :=
  repeat (apply lookup_insert_Some in H as [[<- <-]|[_ H]]);
  try (apply lookup_singleton_Some in H as [<- <-]).

(** Split a membership in a list written out into its cases. *)
Ltac elem_cases H :=
  repeat (apply elem_of_cons in H as [->|H]);
  try (by apply elem_of_nil in H).

Lemma account_balance_ints_witness :
  node_returns (simulated_client (VDict balance_response))
    (VDict balance_response) ∧
  ∃ d, (@account_balance raw_models
          (simulated_client (VDict balance_response)) example_account).2
         = Ok (VDict d) ∧
       dom d = dom balance_response ∧
       (∀ k v, d !! k = Some v →
               ∃ s n, balance_response !! k = Some (VStr s) ∧
                      Py.int_of_string s = Some n ∧ v = VInt n).
Proof.
  split; [apply simulated_node_returns|].
  apply (@account_balance_ints raw_models).
  - apply simulated_node_returns.
  - intros k v Hk. unfold balance_response in Hk. lookup_cases Hk;
      (eexists _, _; split; [reflexivity|vm_compute; reflexivity]).
Defined.

Lemma stop_success_key_witness :
  node_returns (simulated_client (VDict stop_response)) (VDict stop_response) ∧
  ∃ b, (stop (simulated_client (VDict stop_response))).2 = Ok (VBool b) ∧
       (b = true ↔ is_Some (stop_response !! "success")) ∧
       (b = false ↔ stop_response !! "success" = None).
Proof.
  split; [apply simulated_node_returns|].
  apply stop_success_key, simulated_node_returns.
Defined.

Lemma missing_field_gives_empty_list_witness :
  Py.int (VInt 1) = Ok 1 ∧
  (∅ : gmap string value) !! "history" = None ∧
  (∅ : gmap string value) !! "accounts" = None ∧
  (@account_history raw_models (simulated_client (VDict ∅))
     example_account (VInt 1)).2 = Ok (VList []) ∧
  (@account_list raw_models (simulated_client (VDict ∅))
     example_wallet).2 = Ok (VList []).
Proof.
  destruct (@missing_field_gives_empty_list raw_models
              (simulated_client (VDict ∅)) example_account (VInt 1)
              example_wallet 1 ∅) as [Hhistory Haccounts].
  - apply simulated_node_returns.
  - reflexivity.
  - do 3 (split; [reflexivity|]).
    split; [apply Hhistory | apply Haccounts]; reflexivity.
Defined.

Lemma falsy_field_gives_empty_list_witness :
  Py.truthy VNone = false ∧
  null_lists_response !! "history" = Some VNone ∧
  null_lists_response !! "accounts" = Some VNone ∧
  (@account_history raw_models (simulated_client (VDict null_lists_response))
     example_account (VInt 1)).2 = Ok (VList []) ∧
  (@account_list raw_models (simulated_client (VDict null_lists_response))
     example_wallet).2 = Ok (VList []).
Proof.
  destruct (@falsy_field_gives_empty_list raw_models
              (simulated_client (VDict null_lists_response)) example_account
              (VInt 1) example_wallet VNone 1 null_lists_response)
    as [Hhistory Haccounts].
  - apply simulated_node_returns.
  - reflexivity.
  - reflexivity.
  - do 3 (split; [reflexivity|]).
    split; [apply Hhistory | apply Haccounts]; reflexivity.
Defined.

Lemma account_info_converts_five_witness :
  ∃ d, (@account_info raw_models (simulated_client (VDict info_response))
          example_account (VBool false) (VBool false) (VBool false)).2
         = Ok (VDict d) ∧
       d !! "balance" = Some (VInt 235580100176034320859259343606608761791) ∧
       d !! "modified_timestamp" = Some (VInt 1501793775) ∧
       d !! "block_count" = Some (VInt 33) ∧
       d !! "pending" = None ∧
       d !! "weight" = None ∧
       d !! "frontier" = info_response !! "frontier".
Proof.
  destruct (@account_info_converts_five raw_models
              (simulated_client (VDict info_response)) example_account
              (VBool false) (VBool false) (VBool false) info_response)
    as (d & Hrun & Hint & Hnone & Hrest).
  - apply simulated_node_returns.
  - intros k v Hk Hv.
    each_of Hk ltac:(vm_compute in Hv; try discriminate Hv;
                     injection Hv as <-; eexists; vm_compute; reflexivity).
  - exists d. split; [exact Hrun|].
    split; [apply (Hint _ (VStr "235580100176034320859259343606608761791"));
            [in_list|reflexivity|reflexivity]|].
    split; [apply (Hint _ (VStr "1501793775"));
            [in_list|reflexivity|reflexivity]|].
    split; [apply (Hint _ (VStr "33")); [in_list|reflexivity|reflexivity]|].
    split; [apply Hnone; [in_list|reflexivity]|].
    split; [apply Hnone; [in_list|reflexivity]|].
    apply Hrest. intros Hin. not_in_list Hin.
Defined.

(** C5 as written fails: a response whose "balance" is not a number makes
    [account_info] raise [ValueError]; no field is returned, converted or
    not. *)
Lemma account_info_unconvertible_field_raises :
  node_returns (simulated_client (VDict bad_info_response))
    (VDict bad_info_response) ∧
  bad_info_response !! "balance" = Some (VStr "unknown") ∧
  bad_info_response !! "block_count" = Some (VStr "33") ∧
  (@account_info raw_models (simulated_client (VDict bad_info_response))
     example_account (VBool false) (VBool false) (VBool false)).2
  = Raise ValueError.
Proof.
  split; [apply simulated_node_returns|].
  repeat split; vm_compute; reflexivity.
Defined.

Lemma version_converts_both_witness :
  version_response !! "rpc_version" = Some (VStr "1") ∧
  Py.int_of_string "1" = Some 1 ∧
  version_response !! "store_version" = Some (VStr "10") ∧
  Py.int_of_string "10" = Some 10 ∧
  (version (simulated_client (VDict version_response))).2
    = Ok (VDict (<["store_version" := VInt 10]>
                (<["rpc_version" := VInt 1]> version_response))) ∧
  (∀ k, k ∉ version_keys →
        <["store_version" := VInt 10]>
          (<["rpc_version" := VInt 1]> version_response) !! k
        = version_response !! k).
Proof.
  destruct (version_converts_both (simulated_client (VDict version_response))
              version_response "1" "10" 1 10)
    as (Hrun & _ & _ & Hrest).
  - apply simulated_node_returns.
  - reflexivity.
  - reflexivity.
  - reflexivity.
  - reflexivity.
  - do 4 (split; [reflexivity|]). split; [exact Hrun | exact Hrest].
Defined.


Lemma error_field_not_special_witness :
  error_response !! "error" = Some (VStr "Account not found") ∧
  (@account_info raw_models (simulated_client (VDict error_response))
     example_account (VBool false) (VBool false) (VBool false)).2
    = Ok (VDict error_response) ∧
  (@account_block_count raw_models (simulated_client (VDict error_response))
     example_account).2 = Raise KeyError ∧
  (@account_list raw_models (simulated_client (VDict error_response))
     example_wallet).2 = Ok (VList []) ∧
  (stop (simulated_client (VDict error_response))).2 = Ok (VBool false) ∧
  (@account_balance raw_models (simulated_client (VDict error_response))
     example_account).2 = Raise ValueError.
Proof.
  destruct (@error_field_not_special raw_models
              (simulated_client (VDict error_response))
              (simulated_client (VDict (delete "error" error_response)))
              example_account (VBool false) (VBool false) (VBool false)
              example_wallet example_wallet (VInt 1) error_response
              "error" (VStr "Account not found"))
    as (Hinfo & _ & Hcount & _ & _ & _ & Hlist & Hstop & Hbalance).
  - apply simulated_node_returns.
  - apply simulated_node_returns.
  - reflexivity.
  - intros Hin. not_in_list Hin.
  - split; [reflexivity|].
    split; [rewrite Hinfo; vm_compute; reflexivity|].
    split; [rewrite Hcount; vm_compute; reflexivity|].
    split; [rewrite Hlist; vm_compute; reflexivity|].
    split; [rewrite Hstop; vm_compute; reflexivity|].
    rewrite (Hbalance ∅); [reflexivity|vm_compute; reflexivity].
Defined.

(** C9 as written fails: with a response whose only field is an error
    message, [account_balance] raises [ValueError] and returns nothing. *)
Lemma account_balance_error_field_raises :
  node_returns (simulated_client (VDict error_response))
    (VDict error_response) ∧
  error_response !! "error" = Some (VStr "Account not found") ∧
  @account_balance raw_models (simulated_client (VDict error_response))
    example_account
  = ([ {| url := "http://localhost:7076";
          body := VDict (<["action" := VStr "account_balance"]>
                           {[ "account" := example_account ]}) |} ],
     Raise ValueError).
Proof.
  split; [apply simulated_node_returns|].
  split; vm_compute; reflexivity.
Defined.

(** ** Further facts: requests, failures and edge cases *)

Lemma reply_node_raises (self : Client) (e : exn) (params : value) :
  node_raises self e → reply self params = Raise e.
Proof. intros Hn. apply Hn. Qed.

Lemma unreachable_node_raises (e : exn) :
  node_raises (unreachable_client e) e.
Proof. by intros params. Qed.

Lemma for_each_update_raises {A} (xs : list A) (body : A → result A) :
  Exists (λ x, raises (body x)) xs → raises (for_each_update xs body).
Proof.
  induction 1 as [x xs [e He]|x xs _ [e He]]; simpl.
  - exists e. by rewrite He.
  - destruct (body x) as [x'|e']; simpl; [|by exists e'].
    exists e. by rewrite He.
Qed.

Lemma int_amount_raises (entry : value) :
  ¬ amount_convertible entry → raises (int_amount entry).
Proof.
  intros Hno. destruct entry as [| | | | |l|d]; try by exists TypeError.
  simpl. destruct (d !! "amount") as [v|] eqn:Hv; [|by exists KeyError].
  simpl. destruct (Py.int v) as [n|e] eqn:Hn; [|by exists e].
  destruct Hno. by exists d, v, n.
Qed.

Lemma for_in_int_fields_raises (keys : list string) (d : gmap string value)
    (k : string) (v : value) :
  k ∈ keys → d !! k = Some v → raises (Py.int v) →
  raises (for_in keys int_field_if_present (VDict d)).
Proof.
  intros Hk Hv [e He]. revert d Hk Hv.
  induction keys as [|key keys IH]; intros d Hk Hv.
  { by apply elem_of_nil in Hk. }
  cbn [for_in]. simpl Py.contains. cbn [result_bind].
  destruct (d !! key) as [w|] eqn:Hkey.
  - simpl. rewrite Hkey. simpl.
    destruct (Py.int w) as [n|e'] eqn:Hw; simpl; [|by exists e'].
    destruct (decide (key = k)) as [->|Hne]; [congruence|].
    apply IH.
    + apply elem_of_cons in Hk as [->|Hk]; done.
    + by rewrite lookup_insert_ne.
  - apply IH; [|done].
    apply elem_of_cons in Hk as [->|Hk]; [congruence|done].
Qed.

(** Unfold one operation up to the exception of the node. *)
Ltac run_call_raise Hnode :=
  unfold bind; first [rewrite call_dict | rewrite call_none];
  rewrite (reply_node_raises _ _ _ Hnode); cbn [lift fst snd].

Section client_more_facts.
Context `{Models}.

Lemma account_info_raises_on (self : Client)
    (account representative weight pending : value)
    (resp : gmap string value) (k : string) (v : value) :
  node_returns self (VDict resp) →
  k ∈ account_info_keys →
  resp !! k = Some v →
  raises (Py.int v) →
  raises (account_info self account representative weight pending).2.
Proof.
  intros Hnode Hk Hv Hraise. unfold account_info. run_call Hnode.
  by apply (for_in_int_fields_raises _ _ k v).
Qed.

(** X1: every operation without a count sends one request, to the host of
    the client, whatever the node answers; its body is the payload of the
    operation with the name of the operation under "action". *)
Theorem operations_send_one_request (self : Client)
    (account representative weight pending wallet key : value) :
  let sends (op : M value) (action : string) (payload : gmap string value) :=
    op.1 = [ {| url := host self;
                body := VDict (<["action" := VStr action]> payload) |} ] in
  sends (account_balance self account) "account_balance"
        {[ "account" := Account account ]} ∧
  sends (account_block_count self account) "account_block_count"
        {[ "account" := Account account ]} ∧
  sends (account_info self account representative weight pending)
        "account_info"
        (account_info_payload account representative weight pending) ∧
  sends (account_create self wallet) "account_create"
        {[ "wallet" := Wallet wallet ]} ∧
  sends (account_get self key) "account_get"
        {[ "key" := PublicKey key ]} ∧
  sends (account_list self wallet) "account_list"
        {[ "wallet" := Wallet wallet ]} ∧
  sends (version self) "version" ∅ ∧
  sends (stop self) "stop" ∅.
Proof.
  intros sends. subst sends. cbv beta.
  unfold account_balance, account_block_count, account_info, account_create,
    account_get, account_list, version, stop.
  rewrite !sent_by_bind_lift, !call_dict, !call_none. cbn [fst].
  by repeat split.
Qed.

(** X2: an exception of the transport or of the JSON decoding comes out of
    every operation as it is: nothing catches or replaces it. *)
Theorem node_exception_propagates (self : Client) (e : exn)
    (account representative weight pending wallet key count action : value)
    (params : gmap string value) (n : Z) :
  node_raises self e →
  Py.int count = Ok n →
  (call self action (VDict params)).2 = Raise e ∧
  (account_balance self account).2 = Raise e ∧
  (account_block_count self account).2 = Raise e ∧
  (account_info self account representative weight pending).2 = Raise e ∧
  (account_create self wallet).2 = Raise e ∧
  (account_get self key).2 = Raise e ∧
  (account_history self account count).2 = Raise e ∧
  (account_list self wallet).2 = Raise e ∧
  (version self).2 = Raise e ∧
  (stop self).2 = Raise e.
Proof.
  intros Hnode Hcount.
  split; [by rewrite call_dict, (reply_node_raises _ _ _ Hnode)|].
  unfold account_history. rewrite (preprocess_int_ok _ _ Hcount).
  cbn [lift bind].
  unfold account_balance, account_block_count, account_info, account_create,
    account_get, account_list, version, stop, bind.
  rewrite !call_dict, !call_none, !(reply_node_raises _ _ _ Hnode).
  by repeat split.
Qed.

(** X3: [account_block_count] returns the integer under "block_count" when
    [int] accepts it, raises [KeyError] when the response mapping has no
    such field, and raises what [int] raises otherwise. *)
Theorem account_block_count_result (self : Client) (account : value)
    (resp : gmap string value) :
  node_returns self (VDict resp) →
  (∀ v n, resp !! "block_count" = Some v → Py.int v = Ok n →
          (account_block_count self account).2 = Ok (VInt n)) ∧
  (resp !! "block_count" = None →
          (account_block_count self account).2 = Raise KeyError) ∧
  (∀ v e, resp !! "block_count" = Some v → Py.int v = Raise e →
          (account_block_count self account).2 = Raise e).
Proof.
  intros Hnode. unfold account_block_count. run_call Hnode. simpl.
  repeat split.
  - intros v n -> Hn. simpl. by rewrite Hn.
  - by intros ->.
  - intros v e -> He. simpl. by rewrite He.
Qed.

(** X4: [account_create] and [account_get] return what the response holds
    under "account" as it is, whatever its type, and raise [KeyError] when
    the response mapping has no such field. *)
Theorem account_create_get_verbatim (self : Client) (wallet key : value)
    (resp : gmap string value) :
  node_returns self (VDict resp) →
  (∀ v, resp !! "account" = Some v →
        (account_create self wallet).2 = Ok v ∧
        (account_get self key).2 = Ok v) ∧
  (resp !! "account" = None →
        (account_create self wallet).2 = Raise KeyError ∧
        (account_get self key).2 = Raise KeyError).
Proof.
  intros Hnode. unfold account_create, account_get. run_call Hnode.
  run_call Hnode. simpl.
  split; [intros v ->|intros ->]; by split.
Qed.

(** X5: [version] needs both fields: on a response mapping without
    "rpc_version" it raises [KeyError], and so it does without
    "store_version" once "rpc_version" has been converted. *)
Theorem version_missing_field_raises (self : Client)
    (resp : gmap string value) :
  node_returns self (VDict resp) →
  (resp !! "rpc_version" = None → (version self).2 = Raise KeyError) ∧
  (∀ v n, resp !! "rpc_version" = Some v → Py.int v = Ok n →
          resp !! "store_version" = None →
          (version self).2 = Raise KeyError).
Proof.
  intros Hnode. unfold version. run_call Hnode. simpl.
  split.
  - by intros ->.
  - intros v n -> Hn Hstore. simpl. rewrite Hn. simpl.
    rewrite lookup_insert_ne by done. by rewrite Hstore.
Qed.

(** X6: [account_history] converts the count before it sends anything: a
    count that [int] rejects raises with no request sent, and a count that
    [int] accepts as [n] is sent as the decimal string of [n], whatever the
    node answers. *)
Theorem account_history_count_first (self : Client) (account count : value) :
  (∀ e, Py.int count = Raise e →
        account_history self account count = ([], Raise e)) ∧
  (∀ n, Py.int count = Ok n →
        (account_history self account count).1
        = [ {| url := host self;
               body := VDict (<["action" := VStr "account_history"]>
                             (<["count" := VStr (Py.str_of_int n)]>
                              {[ "account" := Account account ]})) |} ]).
Proof.
  split.
  - intros e He. unfold account_history, preprocess_int. by rewrite He.
  - intros n Hn. unfold account_history.
    rewrite (preprocess_int_ok _ _ Hn). rewrite bind_lift_ok.
    rewrite sent_by_bind_lift, call_dict. by cbn [fst].
Qed.

(** X7: one entry of the history list that is not a dict, has no "amount",
    or has an "amount" that [int] rejects makes [account_history] raise: no
    partly converted list comes back. *)
Theorem account_history_bad_entry_raises (self : Client)
    (account count : value) (n : Z) (resp : gmap string value)
    (entries : list value) :
  node_returns self (VDict resp) →
  Py.int count = Ok n →
  resp !! "history" = Some (VList entries) →
  Exists (λ entry, ¬ amount_convertible entry) entries →
  raises (account_history self account count).2.
Proof.
  intros Hnode Hcount Hhist Hbad.
  unfold account_history. rewrite (preprocess_int_ok _ _ Hcount).
  cbn [lift bind]. run_call Hnode. simpl. rewrite Hhist. simpl.
  assert (Hor : Py.or_ (VList entries) (VList []) = VList entries).
  { destruct entries; [by inversion Hbad|done]. }
  rewrite Hor. simpl.
  destruct (for_each_update_raises entries int_amount) as [e He].
  { eapply Exists_impl; [exact Hbad|]. intros entry. apply int_amount_raises. }
  exists e. by rewrite He.
Qed.

(** X8: a "history" that is truthy and is not a list (a number, [True], a
    string that is not empty, a dict that is not empty) makes
    [account_history] raise [TypeError]. *)
Theorem account_history_not_a_list_raises (self : Client)
    (account count v : value) (n : Z) (resp : gmap string value) :
  node_returns self (VDict resp) →
  Py.int count = Ok n →
  resp !! "history" = Some v →
  Py.truthy v = true →
  is_list v = false →
  (account_history self account count).2 = Raise TypeError.
Proof.
  intros Hnode Hcount Hhist Htrue Hlist.
  unfold account_history. rewrite (preprocess_int_ok _ _ Hcount).
  cbn [lift bind]. run_call Hnode. simpl. rewrite Hhist. simpl.
  unfold Py.or_. rewrite Htrue.
  destruct v as [|b|z|f|s|l|d]; try done.
  - destruct s as [|c s]; [done|]. done.
  - simpl. destruct (map_to_list d) as [|[k w] its] eqn:Hits; [|done].
    apply map_to_list_empty_iff in Hits. subst d. done.
Qed.

(** X9: a field among the five that is present with a value [int] rejects
    makes [account_info] raise. *)
Theorem account_info_bad_field_raises (self : Client)
    (account representative weight pending : value)
    (resp : gmap string value) (k : string) (v : value) :
  node_returns self (VDict resp) →
  k ∈ account_info_keys →
  resp !! k = Some v →
  raises (Py.int v) →
  raises (account_info self account representative weight pending).2.
Proof.
  intros Hnode Hk Hv Hraise. unfold account_info. run_call Hnode.
  by apply (for_in_int_fields_raises _ _ k v).
Qed.

(** X10: what [account_info] returns has the keys of the response, no more
    and no fewer. *)
Theorem account_info_keeps_keys (self : Client)
    (account representative weight pending : value)
    (resp d : gmap string value) :
  node_returns self (VDict resp) →
  (account_info self account representative weight pending).2
    = Ok (VDict d) →
  dom d = dom resp.
Proof.
  intros Hnode Hrun.
  assert (Hconv : ∀ k v, k ∈ account_info_keys → resp !! k = Some v →
                         ∃ n, Py.int v = Ok n).
  { intros k v Hk Hv. destruct (Py.int v) as [n|e] eqn:Hn; [by exists n|].
    destruct (account_info_raises_on self account representative
                weight pending resp k v Hnode Hk Hv) as [e' He'].
    { by exists e. }
    congruence. }
  destruct (account_info_lookup self account representative weight pending
              resp Hnode Hconv) as (d' & Hrun' & Hd').
  assert (d' = d) as -> by congruence.
  apply set_eq. intros k. rewrite !elem_of_dom, Hd'.
  case_decide; [|done]. by rewrite fmap_is_Some.
Qed.

(** X11: converting twice is converting once: when [account_info] returns
    [d], it returns [d] again for a node that answers [d]. *)
Theorem account_info_idempotent (self self' : Client)
    (account representative weight pending : value)
    (resp d : gmap string value) :
  node_returns self (VDict resp) →
  (account_info self account representative weight pending).2
    = Ok (VDict d) →
  node_returns self' (VDict d) →
  (account_info self' account representative weight pending).2
    = Ok (VDict d).
Proof.
  intros Hnode Hrun Hnode'.
  assert (Hconv : ∀ k v, k ∈ account_info_keys → resp !! k = Some v →
                         ∃ n, Py.int v = Ok n).
  { intros k v Hk Hv. destruct (Py.int v) as [n|e] eqn:Hn; [by exists n|].
    destruct (account_info_raises_on self account representative
                weight pending resp k v Hnode Hk Hv) as [e' He'].
    { by exists e. }
    congruence. }
  destruct (account_info_lookup self account representative weight pending
              resp Hnode Hconv) as (d0 & Hrun0 & Hd0).
  assert (d0 = d) as -> by congruence.
  assert (Hints : ∀ k v, k ∈ account_info_keys → d !! k = Some v →
                         ∃ n, v = VInt n).
  { intros k v Hk. rewrite Hd0, decide_True by done.
    destruct (resp !! k) as [w|] eqn:Hw; [|done].
    destruct (Hconv k w Hk Hw) as [n Hn].
    simpl. rewrite (as_int_ok _ _ Hn). intros [= <-]. by exists n. }
  destruct (account_info_lookup self' account representative weight pending
              d Hnode') as (d1 & Hrun1 & Hd1).
  { intros k v Hk Hv. destruct (Hints k v Hk Hv) as [n ->]. by exists n. }
  rewrite Hrun1. do 2 f_equal. apply map_eq. intros k. rewrite Hd1.
  case_decide as Hk; [|done].
  destruct (d !! k) as [v|] eqn:Hv; [|done].
  by destruct (Hints k v Hk Hv) as [n ->].
Qed.

(** X12: converting twice is converting once for [account_balance] too:
    when it returns [d], it returns [d] again for a node that answers [d],
    and every value of [d] is an integer. *)
Theorem account_balance_idempotent (self self' : Client) (account : value)
    (resp d : gmap string value) :
  node_returns self (VDict resp) →
  (account_balance self account).2 = Ok (VDict d) →
  node_returns self' (VDict d) →
  (∀ k v, d !! k = Some v → ∃ n, v = VInt n) ∧
  (account_balance self' account).2 = Ok (VDict d).
Proof.
  intros Hnode Hrun Hnode'.
  assert (Hconv : ∀ k v, resp !! k = Some v → ∃ n, Py.int v = Ok n).
  { intros k v Hv. destruct (Py.int v) as [n|e] eqn:Hn; [by exists n|].
    destruct (for_in_int_items_map_raises resp k v Hv) as [e' He'].
    { by exists e. }
    revert Hrun. unfold account_balance. run_call Hnode. simpl.
    by rewrite He'. }
  assert (Hd : d = as_int <$> resp).
  { revert Hrun. unfold account_balance. run_call Hnode. simpl.
    rewrite (for_in_int_items_map _ Hconv). simpl. congruence. }
  assert (Hints : ∀ k v, d !! k = Some v → ∃ n, v = VInt n).
  { intros k v. rewrite Hd, lookup_fmap.
    destruct (resp !! k) as [w|] eqn:Hw; [|done].
    destruct (Hconv k w Hw) as [n Hn].
    simpl. rewrite (as_int_ok _ _ Hn). intros [= <-]. by exists n. }
  split; [done|].
  unfold account_balance. run_call Hnode'. simpl.
  rewrite for_in_int_items_map.
  - simpl. do 2 f_equal. apply map_eq. intros k. rewrite lookup_fmap.
    destruct (d !! k) as [v|] eqn:Hv; [|done].
    by destruct (Hints k v Hv) as [n ->].
  - intros k v Hv. destruct (Hints k v Hv) as [n ->]. by exists n.
Qed.


(** X14: [preprocess_strbool] returns the string "true" for a truthy value
    and the string "false" for a falsy one, never the value itself. *)
Theorem preprocess_strbool_values (v : value) :
  preprocess_strbool v = VStr (if Py.truthy v then "true" else "false").
Proof.
  destruct (Py.truthy v) eqn:Hv.
  - by apply preprocess_strbool_truthy.
  - by apply preprocess_strbool_falsy.
Qed.

(** X15: [call] replaces every falsy [params] ([None], an empty dict, an
    empty list, zero, an empty string) by a new dict, so that the body has
    the action alone; truthy [params] that are not a dict raise [TypeError]
    with no request sent. *)
Theorem call_params_edge_cases (self : Client) (action params : value) :
  (Py.truthy params = false →
     call self action params
     = ([ {| url := host self; body := VDict {[ "action" := action ]} |} ],
        reply self (VDict {[ "action" := action ]}))) ∧
  (Py.truthy params = true → is_dict params = false →
     call self action params = ([], Raise TypeError)).
Proof.
  split.
  - intros Hfalse. unfold call. rewrite (or_falsy _ _ Hfalse).
    apply (call_none self action).
  - intros Htrue Hnot. unfold call, Py.or_. rewrite Htrue.
    by destruct params.
Qed.

(** X16: when the node answers with JSON that is not an object, the
    operations that call [items] or [get] on it raise [AttributeError] and
    those that index it raise [TypeError]. *)
Theorem non_object_response_raises (self : Client)
    (account count wallet key resp : value) (n : Z) :
  node_returns self resp →
  is_dict resp = false →
  Py.int count = Ok n →
  (account_balance self account).2 = Raise AttributeError ∧
  (account_history self account count).2 = Raise AttributeError ∧
  (account_list self wallet).2 = Raise AttributeError ∧
  (account_block_count self account).2 = Raise TypeError ∧
  (account_create self wallet).2 = Raise TypeError ∧
  (account_get self key).2 = Raise TypeError ∧
  (version self).2 = Raise TypeError.
Proof.
  intros Hnode Hnot Hcount.
  unfold account_history. rewrite (preprocess_int_ok _ _ Hcount).
  cbn [lift bind].
  unfold account_balance, account_block_count, account_create, account_get,
    account_list, version, bind.
  rewrite !call_dict, !call_none, !(reply_node_returns _ _ _ Hnode).
  by destruct resp.
Qed.

(** X17: [account_list] returns a truthy "accounts" as it came, whatever its
    type: it converts and checks nothing. *)
Theorem account_list_verbatim (self : Client) (wallet v : value)
    (resp : gmap string value) :
  node_returns self (VDict resp) →
  resp !! "accounts" = Some v →
  Py.truthy v = true →
  (account_list self wallet).2 = Ok v.
Proof.
  intros Hnode Hv Htrue. unfold account_list. run_call Hnode. simpl.
  rewrite Hv. simpl. unfold Py.or_. by rewrite Htrue.
Qed.

(** X18: the host of a new client is never the empty string: a missing or
    empty host gives the default address; a host that is not empty and a
    session that is given are kept. *)
Theorem Client_init_defaults (requests_Session : Session)
    (h : option string) (s : option Session) :
  host (Client_init requests_Session h s) ≠ "" ∧
  (h = None ∨ h = Some "" →
     host (Client_init requests_Session h s) = "http://localhost:7076") ∧
  (∀ h', h = Some h' → h' ≠ "" →
     host (Client_init requests_Session h s) = h') ∧
  _session (Client_init requests_Session h s) = default requests_Session s.
Proof.
  unfold Client_init. simpl. repeat split.
  - destruct h as [h'|]; [|done].
    destruct (String.eqb_spec h' ""); done.
  - by intros [->| ->].
  - intros h' -> Hne. by destruct (String.eqb_spec h' "").
Qed.

End client_more_facts.

(** ** The further facts at the responses of a simulated node *)

Lemma node_exception_propagates_witness :
  node_raises (unreachable_client (OtherError "ConnectionError"))
    (OtherError "ConnectionError") ∧
  (@account_balance raw_models
     (unreachable_client (OtherError "ConnectionError")) example_account).2
    = Raise (OtherError "ConnectionError") ∧
  (@account_history raw_models
     (unreachable_client (OtherError "ConnectionError")) example_account
     (VInt 1)).2
    = Raise (OtherError "ConnectionError").
Proof.
  destruct (@node_exception_propagates raw_models
              (unreachable_client (OtherError "ConnectionError"))
              (OtherError "ConnectionError") example_account (VBool false)
              (VBool false) (VBool false) example_wallet example_wallet
              (VInt 1) (VStr "version") ∅ 1)
    as (_ & Hbalance & _ & _ & _ & _ & Hhistory & _).
  - apply unreachable_node_raises.
  - reflexivity.
  - split; [apply unreachable_node_raises|].
    split; [exact Hbalance | exact Hhistory].
Defined.

Lemma account_block_count_result_witness :
  block_count_response !! "block_count" = Some (VStr "19") ∧
  Py.int (VStr "19") = Ok 19 ∧
  (@account_block_count raw_models
     (simulated_client (VDict block_count_response)) example_account).2
    = Ok (VInt 19).
Proof.
  destruct (@account_block_count_result raw_models
              (simulated_client (VDict block_count_response)) example_account
              block_count_response) as (Hint & _ & _).
  - apply simulated_node_returns.
  - do 2 (split; [reflexivity|]). apply (Hint (VStr "19")); reflexivity.
Defined.

Lemma account_create_get_verbatim_witness :
  create_response !! "account" = Some example_account ∧
  (@account_create raw_models (simulated_client (VDict create_response))
     example_wallet).2 = Ok example_account ∧
  (@account_get raw_models (simulated_client (VDict create_response))
     example_wallet).2 = Ok example_account.
Proof.
  destruct (@account_create_get_verbatim raw_models
              (simulated_client (VDict create_response)) example_wallet
              example_wallet create_response) as (Hsome & _).
  - apply simulated_node_returns.
  - split; [reflexivity|]. apply Hsome. reflexivity.
Defined.

Lemma version_missing_field_raises_witness :
  error_response !! "rpc_version" = None ∧
  (version (simulated_client (VDict error_response))).2 = Raise KeyError.
Proof.
  destruct (version_missing_field_raises
              (simulated_client (VDict error_response)) error_response)
    as (Hrpc & _).
  - apply simulated_node_returns.
  - split; [reflexivity|]. apply Hrpc. reflexivity.
Defined.

Lemma account_history_count_first_witness :
  Py.int (VStr "one") = Raise ValueError ∧
  @account_history raw_models (simulated_client (VDict history_response))
    example_account (VStr "one") = ([], Raise ValueError).
Proof.
  destruct (@account_history_count_first raw_models
              (simulated_client (VDict history_response)) example_account
              (VStr "one")) as (Hbad & _).
  split; [reflexivity|]. apply Hbad. reflexivity.
Defined.

Lemma account_history_bad_entry_raises_witness :
  Exists (λ entry, ¬ amount_convertible entry)
    [VDict history_entry; VDict entry_without_amount] ∧
  raises (@account_history raw_models
            (simulated_client (VDict bad_history_response)) example_account
            (VInt 1)).2.
Proof.
  assert (Hbad : Exists (λ entry, ¬ amount_convertible entry)
                   [VDict history_entry; VDict entry_without_amount]).
  { apply Exists_cons_tl, Exists_cons_hd.
    intros (d & v & n & [= <-] & Hv & _). vm_compute in Hv. discriminate Hv. }
  split; [exact Hbad|].
  apply (@account_history_bad_entry_raises raw_models _ _ _ 1
           bad_history_response
           [VDict history_entry; VDict entry_without_amount]).
  - apply simulated_node_returns.
  - reflexivity.
  - reflexivity.
  - exact Hbad.
Defined.

Lemma account_history_not_a_list_raises_witness :
  (@account_history raw_models
     (simulated_client (VDict text_history_response)) example_account
     (VInt 1)).2 = Raise TypeError.
Proof.
  apply (@account_history_not_a_list_raises raw_models _ _ _ (VStr "none") 1
           text_history_response).
  - apply simulated_node_returns.
  - reflexivity.
  - reflexivity.
  - reflexivity.
  - reflexivity.
Defined.

Lemma account_info_bad_field_raises_witness :
  raises (@account_info raw_models
            (simulated_client (VDict bad_info_response)) example_account
            (VBool false) (VBool false) (VBool false)).2.
Proof.
  apply (@account_info_bad_field_raises raw_models _ _ _ _ _
           bad_info_response "balance" (VStr "unknown")).
  - apply simulated_node_returns.
  - unfold account_info_keys. do 2 right. by left.
  - reflexivity.
  - exists ValueError. reflexivity.
Defined.

Lemma account_info_keeps_keys_witness :
  dom info_converted = dom info_response.
Proof.
  apply (@account_info_keeps_keys raw_models
           (simulated_client (VDict info_response)) example_account
           (VBool false) (VBool false) (VBool false)).
  - apply simulated_node_returns.
  - vm_compute. reflexivity.
Defined.

Lemma account_info_idempotent_witness :
  (@account_info raw_models (simulated_client (VDict info_converted))
     example_account (VBool false) (VBool false) (VBool false)).2
    = Ok (VDict info_converted).
Proof.
  apply (@account_info_idempotent raw_models
           (simulated_client (VDict info_response)) _ _ _ _ _ info_response).
  - apply simulated_node_returns.
  - vm_compute. reflexivity.
  - apply simulated_node_returns.
Defined.

Lemma account_balance_idempotent_witness :
  (∀ k v, balance_converted !! k = Some v → ∃ n, v = VInt n) ∧
  (@account_balance raw_models (simulated_client (VDict balance_converted))
     example_account).2 = Ok (VDict balance_converted).
Proof.
  apply (@account_balance_idempotent raw_models
           (simulated_client (VDict balance_response)) _ _ balance_response).
  - apply simulated_node_returns.
  - vm_compute. reflexivity.
  - apply simulated_node_returns.
Defined.


Lemma call_params_edge_cases_witness :
  call (simulated_client VNone) (VStr "version") (VList [])
    = ([ {| url := "http://localhost:7076";
            body := VDict {[ "action" := VStr "version" ]} |} ],
       Ok VNone) ∧
  call (simulated_client VNone) (VStr "version") (VList [VNone])
    = ([], Raise TypeError).
Proof.
  split.
  - apply (call_params_edge_cases (simulated_client VNone) (VStr "version")
             (VList [])). reflexivity.
  - apply (call_params_edge_cases (simulated_client VNone) (VStr "version")
             (VList [VNone])); reflexivity.
Defined.

Lemma non_object_response_raises_witness :
  (@account_balance raw_models (simulated_client (VList []))
     example_account).2 = Raise AttributeError ∧
  (version (simulated_client (VList []))).2 = Raise TypeError.
Proof.
  destruct (@non_object_response_raises raw_models
              (simulated_client (VList [])) example_account (VInt 1)
              example_wallet example_wallet (VList []) 1)
    as (Hbalance & _ & _ & _ & _ & _ & Hversion).
  - apply simulated_node_returns.
  - reflexivity.
  - reflexivity.
  - split; [exact Hbalance | exact Hversion].
Defined.

Lemma account_list_verbatim_witness :
  (@account_list raw_models (simulated_client (VDict list_response))
     example_wallet).2 = Ok (VList [example_account]).
Proof.
  apply (@account_list_verbatim raw_models _ _ _ list_response).
  - apply simulated_node_returns.
  - reflexivity.
  - reflexivity.
Defined.

Lemma Client_init_defaults_witness :
  host (Client_init (simulated VNone) (Some "") None)
    = "http://localhost:7076" ∧
  host (Client_init (simulated VNone) (Some "http://node:7076") None)
    = "http://node:7076".
Proof.
  destruct (Client_init_defaults (simulated VNone) (Some "") None)
    as (_ & Hdefault & _).
  destruct (Client_init_defaults (simulated VNone) (Some "http://node:7076")
              None) as (_ & _ & Hkept & _).
  split.
  - apply Hdefault. by right.
  - by apply Hkept.
Defined.
